(** * Weather adapter ([src/weather/weather.py]): model and properties

    The module exposes two tool handlers, [get_alerts] and [get_forecast],
    built on one request helper, [make_nws_request], and one formatter,
    [format_alert].  The handlers work on whatever value [response.json()]
    hands back, so the model starts with the Python values a JSON document
    decodes to and the handful of run-time operations the source applies
    to them: truth testing, [in], subscripting, slicing, iteration,
    [dict.get] and the [str()] conversion done by an f-string. *)

From Stdlib Require Import String Ascii List ZArith Bool Lia.
From Stdlib Require Import DecimalString.
From Stdlib Require Import Floats.
Import ListNotations.
Local Open Scope list_scope.
Local Open Scope string_scope.

Set Warnings "-register-all".

(** ** Python values *)

Module Py.

(** What [json.loads] can return.  A [dict] keeps its insertion order,
    which Python shows when it prints or iterates one, so it is an
    association list (of distinct keys, as a decoded dict has them);
    [dict_lookup] reads the binding of a key.  A [str] is kept as its
    UTF-8 text. *)
Inductive value : Type :=
| PNone
| PBool (b : bool)
| PInt (z : Z)
| PFloat (f : float)
| PStr (s : string)
| PList (items : list value)
| PDict (entries : list (string * value)).

Definition dict := list (string * value).

(** The exceptions the modelled code can meet.  All of them derive from
    Python's [Exception]. *)
Inductive exn : Type :=
| KeyError (key : string)
| TypeError
| AttributeError
| TransportError      (* httpx.TransportError other than a timeout *)
| TimeoutException    (* httpx.TimeoutException *)
| HTTPStatusError (status : Z)
| JSONDecodeError.

Inductive result (A : Type) : Type :=
| Ret (a : A)
| Raise (e : exn).
Arguments Ret {A} a.
Arguments Raise {A} e.

Definition rbind {A B} (r : result A) (k : A -> result B) : result B :=
  match r with
  | Ret a => k a
  | Raise e => Raise e
  end.

(** [[f x for x in xs]]: left to right, the first exception ends it. *)
Fixpoint map_result {A B} (f : A -> result B) (xs : list A) : result (list B) :=
  match xs with
  | [] => Ret []
  | x :: xs' =>
      rbind (f x) (fun y => rbind (map_result f xs') (fun ys => Ret (y :: ys)))
  end.

(** [bool(v)] *)
Definition truthy (v : value) : bool :=
  match v with
  | PNone => false
  | PBool b => b
  | PInt z => negb (Z.eqb z 0)
  | PFloat f => negb (PrimFloat.eqb f 0%float)
  | PStr s => negb (String.eqb s "")
  | PList l => match l with [] => false | _ => true end
  | PDict d => match d with [] => false | _ => true end
  end.

Fixpoint dict_lookup (d : dict) (key : string) : option value :=
  match d with
  | [] => None
  | (k, v) :: d' => if String.eqb k key then Some v else dict_lookup d' key
  end.

Definition is_str (s : string) (v : value) : bool :=
  match v with
  | PStr t => String.eqb s t
  | _ => false
  end.

Fixpoint prefix_of (p s : string) : bool :=
  match p, s with
  | EmptyString, _ => true
  | String a p', String b s' => Ascii.eqb a b && prefix_of p' s'
  | String _ _, EmptyString => false
  end.

Fixpoint substring_of (p s : string) : bool :=
  prefix_of p s ||
  match s with
  | EmptyString => false
  | String _ s' => substring_of p s'
  end.

(** [key in v] for a [str] key: key membership in a dict, element
    membership in a list, substring test in a str; the other values are
    not containers. *)
Definition contains (v : value) (key : string) : result bool :=
  match v with
  | PDict d => Ret (match dict_lookup d key with Some _ => true | None => false end)
  | PList l => Ret (existsb (is_str key) l)
  | PStr s => Ret (substring_of key s)
  | PNone | PBool _ | PInt _ | PFloat _ => Raise TypeError
  end.

(** [v[key]] for a [str] key.  Only a dict takes one. *)
Definition getitem (v : value) (key : string) : result value :=
  match v with
  | PDict d =>
      match dict_lookup d key with
      | Some x => Ret x
      | None => Raise (KeyError key)
      end
  | _ => Raise TypeError
  end.

(** [v.get(key, default)].  Of the JSON values only a dict has [get]. *)
Definition get (v : value) (key : string) (default : value) : result value :=
  match v with
  | PDict d =>
      match dict_lookup d key with
      | Some x => Ret x
      | None => Ret default
      end
  | _ => Raise AttributeError
  end.

(** [for x in v]: the elements of a list, the keys of a dict, the
    characters of a str (one per byte of the UTF-8 text here, one per
    code point in Python: the handlers subscript each element with a
    str key, which a one-character str rejects either way). *)
Definition iter (v : value) : result (list value) :=
  match v with
  | PList l => Ret l
  | PDict d => Ret (map (fun kv => PStr (fst kv)) d)
  | PStr s => Ret (map (fun c => PStr (String c EmptyString)) (list_ascii_of_string s))
  | PNone | PBool _ | PInt _ | PFloat _ => Raise TypeError
  end.

(** [v[:n]].  A dict rejects a slice as a key ([TypeError] up to
    CPython 3.11, [KeyError] on the slice object after that; the model
    keeps the former). *)
Definition slice_to (n : nat) (v : value) : result value :=
  match v with
  | PList l => Ret (PList (firstn n l))
  | PStr s => Ret (PStr (string_of_list_ascii (firstn n (list_ascii_of_string s))))
  | _ => Raise TypeError
  end.

(** [sep.join(parts)] *)
Fixpoint join (sep : string) (parts : list string) : string :=
  match parts with
  | [] => ""
  | [p] => p
  | p :: rest => p ++ sep ++ join sep rest
  end.

Definition str_of_int (z : Z) : string := NilZero.string_of_int (Z.to_int z).

Section Str.
(** [repr] of a float and of a str are the interpreter's; they are
    taken as given. *)
Variable repr_float : float -> string.
Variable repr_str : string -> string.

Fixpoint repr (v : value) : string :=
  match v with
  | PNone => "None"
  | PBool true => "True"
  | PBool false => "False"
  | PInt z => str_of_int z
  | PFloat f => repr_float f
  | PStr s => repr_str s
  | PList l => "[" ++ join ", " (map repr l) ++ "]"
  | PDict d =>
      "{" ++ join ", " (map (fun kv => repr_str (fst kv) ++ ": " ++ repr (snd kv)) d) ++ "}"
  end.

(** [str(v)], which is what [{v}] inside an f-string inserts. *)
Definition str (v : value) : string :=
  match v with
  | PStr s => s
  | _ => repr v
  end.
End Str.

End Py.

(** ** The adapter *)

Module Weather.
Import Py.

Definition nl : string := String (ascii_of_nat 10) EmptyString.

(* Constants *)
Definition NWS_API_BASE : string := "https://api.weather.gov".
Definition USER_AGENT : string := "weather-app/1.0".

(** *** The outside world

    One [client.get] sends a request and either raises or delivers a
    response.  [response.json()] either decodes the body or raises; the
    response carries the outcome of that decoding. *)
Record request : Type := {
  req_url : value;
  req_headers : list (string * string);
  req_timeout : float
}.

Record response : Type := {
  status_code : Z;
  json_body : option value
}.

Inductive http_outcome : Type :=
| Failed (e : exn)            (* [client.get] raised [e] *)
| Responded (r : response).

(** The network answers a request knowing the requests made before it,
    oldest first. *)
Definition network : Type := list request -> request -> http_outcome.

(** *** Computations that fetch

    A computation runs against the list of requests sent so far and
    returns a value or an exception together with the extended list. *)
Definition M (A : Type) : Type := list request -> result A * list request.

Definition ret {A} (a : A) : M A := fun l => (Ret a, l).

Definition bind {A B} (m : M A) (k : A -> M B) : M B :=
  fun l =>
    match m l with
    | (Ret a, l') => k a l'
    | (Raise e, l') => (Raise e, l')
    end.

Definition lift {A} (r : result A) : M A := fun l => (r, l).

(** [try: m except Exception: h] *)
Definition try_except {A} (m : M A) (h : exn -> M A) : M A :=
  fun l =>
    match m l with
    | (Ret a, l') => (Ret a, l')
    | (Raise e, l') => h e l'
    end.

Declare Scope fetch_scope.
Delimit Scope fetch_scope with fetch.
Notation "x <- m ;; k" := (bind m (fun x => k))
  (at level 61, m at next level, right associativity) : fetch_scope.
Notation "x <~ r ;; k" := (rbind r (fun x => k))
  (at level 61, r at next level, right associativity) : fetch_scope.
Local Open Scope fetch_scope.

(** httpx: [Response.is_success] is the 2xx range, and
    [raise_for_status] raises unless it holds. *)
Definition is_success (r : response) : bool :=
  (200 <=? status_code r)%Z && (status_code r <=? 299)%Z.

Definition raise_for_status (r : response) : result response :=
  if is_success r then Ret r else Raise (HTTPStatusError (status_code r)).

Definition json (r : response) : result value :=
  match json_body r with
  | Some v => Ret v
  | None => Raise JSONDecodeError
  end.

Section Handlers.
Variable repr_float : float -> string.
Variable repr_str : string -> string.
Variable net : network.

Local Abbreviation str := (Py.str repr_float repr_str).

(** [await client.get(url, headers=headers, timeout=timeout)] *)
Definition client_get (url : value) (headers : list (string * string))
    (timeout : float) : M response :=
  fun l =>
    let rq := {| req_url := url; req_headers := headers; req_timeout := timeout |} in
    match net l rq with
    | Failed e => (Raise e, (l ++ [rq])%list)
    | Responded r => (Ret r, (l ++ [rq])%list)
    end.

(* ---- Helper functions ---- *)

Definition nws_headers : list (string * string) :=
  [("User-Agent", USER_AGENT); ("Accept", "application/geo+json")].

(** The [async with httpx.AsyncClient()] block only scopes the client;
    the [try] inside it is what decides the result. *)
Definition make_nws_request (url : value) : M value :=
  let headers := nws_headers in
  try_except
    (response <- client_get url headers 30%float ;;
     _ <- lift (raise_for_status response) ;;
     lift (json response))
    (fun _ => ret PNone).

Definition format_alert (feature : value) : result string :=
  props <~ getitem feature "properties" ;;
  event <~ get props "event" (PStr "Unknown") ;;
  areaDesc <~ get props "areaDesc" (PStr "Unknown") ;;
  severity <~ get props "severity" (PStr "Unknown") ;;
  description <~ get props "description" (PStr "No description available") ;;
  instruction <~ get props "instruction" (PStr "No specific instructions provided") ;;
  Ret (nl ++
       "                Event: " ++ str event ++ nl ++
       "                Area: " ++ str areaDesc ++ nl ++
       "                Severity: " ++ str severity ++ nl ++
       "                Description: " ++ str description ++ nl ++
       "                Instructions: " ++ str instruction ++ nl ++
       "            ").

(* ---- Tool execution ---- *)

Definition separator : string := nl ++ "---" ++ nl.

Definition alerts_url (state : string) : string :=
  NWS_API_BASE ++ "/alerts/active/area/" ++ state.

Definition get_alerts (state : string) : M string :=
  let url := alerts_url state in
  data <- make_nws_request (PStr url) ;;
  unusable <- (if negb (truthy data) then ret true
               else found <- lift (contains data "features") ;; ret (negb found)) ;;
  if (unusable : bool) then ret "Unable to fetch alerts or no alerts found." else
  features <- lift (getitem data "features") ;;
  if negb (truthy features) then ret "No active alerts for this state." else
  features <- lift (getitem data "features") ;;
  items <- lift (iter features) ;;
  alerts <- lift (map_result format_alert items) ;;
  ret (join separator alerts).

(** The body of the [for period in periods[:5]] loop: one block. *)
Definition format_period (period : value) : result string :=
  name <~ getitem period "name" ;;
  temperature <~ getitem period "temperature" ;;
  temperatureUnit <~ getitem period "temperatureUnit" ;;
  windSpeed <~ getitem period "windSpeed" ;;
  windDirection <~ getitem period "windDirection" ;;
  detailedForecast <~ getitem period "detailedForecast" ;;
  Ret (nl ++
       str name ++ ":" ++ nl ++
       "Temperature: " ++ str temperature ++ "°" ++ str temperatureUnit ++ nl ++
       "Wind: " ++ str windSpeed ++ " " ++ str windDirection ++ nl ++
       "Forecast: " ++ str detailedForecast ++ nl).

Definition points_url (latitude longitude : float) : string :=
  NWS_API_BASE ++ "/points/" ++ repr_float latitude ++ "," ++ repr_float longitude.

Definition get_forecast (latitude longitude : float) : M string :=
  (* First get the forecast grid endpoint *)
  let points_url := points_url latitude longitude in
  points_data <- make_nws_request (PStr points_url) ;;
  if negb (truthy points_data)
  then ret "Unable to fetch forecast data for this location." else
  (* Get the forecast URL from the points response *)
  properties <- lift (getitem points_data "properties") ;;
  forecast_url <- lift (getitem properties "forecast") ;;
  forecast_data <- make_nws_request forecast_url ;;
  if negb (truthy forecast_data)
  then ret "Unable to fetch detailed forecast." else
  (* Format the periods into a readable forecast *)
  properties <- lift (getitem forecast_data "properties") ;;
  periods <- lift (getitem properties "periods") ;;
  shown <- lift (slice_to 5 periods) ;;
  items <- lift (iter shown) ;;
  forecasts <- lift (map_result format_period items) ;;
  ret (join separator forecasts).

End Handlers.

End Weather.

(** ** Vocabulary of the statements *)

Import Py Weather.
Local Open Scope fetch_scope.

(** The request [make_nws_request url] sends. *)
Definition nws_request (url : value) : request :=
  {| req_url := url; req_headers := nws_headers; req_timeout := 30%float |}.

(** What reaches the caller of [make_nws_request] for each outcome of
    the request: the decoded body of a 2xx response, [None] otherwise. *)
Definition delivered (o : http_outcome) : value :=
  match o with
  | Failed _ => PNone
  | Responded r =>
      if is_success r
      then match json_body r with Some v => v | None => PNone end
      else PNone
  end.

(** [v[k1][k2]] read off a dict that holds a dict. *)
Definition nested (v : value) (k1 k2 : string) : option value :=
  match v with
  | PDict d =>
      match dict_lookup d k1 with
      | Some (PDict d') => dict_lookup d' k2
      | _ => None
      end
  | _ => None
  end.

(** A points response without a forecast URL: no "properties" key, or
    a property bag without a "forecast" key. *)
Definition lacks_forecast_url (points_data : value) : Prop :=
  exists d,
    points_data = PDict d /\
    (dict_lookup d "properties" = None \/
     exists bag, dict_lookup d "properties" = Some (PDict bag) /\
                 dict_lookup bag "forecast" = None).

(** The property bag of an alert feature. *)
Definition feature_props (feature : value) : option dict :=
  match feature with
  | PDict d =>
      match dict_lookup d "properties" with
      | Some (PDict bag) => Some bag
      | _ => None
      end
  | _ => None
  end.

Definition is_feature (feature : value) : bool :=
  match feature_props feature with Some _ => true | None => false end.

Definition period_fields : list string :=
  ["name"; "temperature"; "temperatureUnit"; "windSpeed"; "windDirection";
   "detailedForecast"].

Definition has_key (d : dict) (k : string) : bool :=
  match dict_lookup d k with Some _ => true | None => false end.

(** A forecast period: a record holding every field the template reads. *)
Definition is_period (period : value) : bool :=
  match period with
  | PDict d => forallb (has_key d) period_fields
  | _ => false
  end.

Section Blocks.
Variable repr_float : float -> string.
Variable repr_str : string -> string.

(** The text shown for an optional field: the value if the bag has the
    key, the placeholder if it has not. *)
Definition shown_or (bag : dict) (key placeholder : string) : string :=
  match dict_lookup bag key with
  | Some v => Py.str repr_float repr_str v
  | None => placeholder
  end.

(** The block of one alert, read off its property bag. *)
Definition alert_block (feature : value) : string :=
  let bag := match feature_props feature with Some b => b | None => [] end in
  nl ++
  "                Event: " ++ shown_or bag "event" "Unknown" ++ nl ++
  "                Area: " ++ shown_or bag "areaDesc" "Unknown" ++ nl ++
  "                Severity: " ++ shown_or bag "severity" "Unknown" ++ nl ++
  "                Description: " ++
     shown_or bag "description" "No description available" ++ nl ++
  "                Instructions: " ++
     shown_or bag "instruction" "No specific instructions provided" ++ nl ++
  "            ".

Definition shown (period : value) (key : string) : string :=
  match period with
  | PDict d => shown_or d key ""
  | _ => ""
  end.

(** The block of one forecast period. *)
Definition period_block (period : value) : string :=
  nl ++
  shown period "name" ++ ":" ++ nl ++
  "Temperature: " ++ shown period "temperature" ++ "°" ++
     shown period "temperatureUnit" ++ nl ++
  "Wind: " ++ shown period "windSpeed" ++ " " ++ shown period "windDirection" ++ nl ++
  "Forecast: " ++ shown period "detailedForecast" ++ nl.

End Blocks.

(** ** Sample data *)

(** Stand-ins for the interpreter's [repr] on the few values the
    examples print. *)
Definition sample_repr_float (f : float) : string :=
  if PrimFloat.eqb f 38.5%float then "38.5"
  else if PrimFloat.eqb f (-77)%float then "-77.0"
  else "0.0".

Definition sample_repr_str (s : string) : string := "'" ++ s ++ "'".

Definition ok (v : value) : http_outcome :=
  Responded {| status_code := 200; json_body := Some v |}.

(** Every request times out. *)
Definition net_down : network := fun _ _ => Failed TimeoutException.

(** Every request gets the same body. *)
Definition net_const (v : value) : network := fun _ _ => ok v.

(** The first request gets [first], later ones [second]. *)
Definition net_two (first second : http_outcome) : network :=
  fun sent _ => match sent with [] => first | _ => second end.

Definition sample_forecast_url : value :=
  PStr "https://api.weather.gov/gridpoints/LWX/96,70/forecast".

Definition sample_points : value :=
  PDict [("properties", PDict [("forecast", sample_forecast_url)])].

Definition sample_period (name : string) (t : Z) : value :=
  PDict [("name", PStr name); ("temperature", PInt t);
         ("temperatureUnit", PStr "F"); ("windSpeed", PStr "5 mph");
         ("windDirection", PStr "NW"); ("detailedForecast", PStr "Clear.")].

Definition sample_forecast : value :=
  PDict [("properties", PDict [("periods", PList
    [sample_period "Tonight" 41; sample_period "Monday" 58;
     sample_period "Monday Night" 39; sample_period "Tuesday" 61;
     sample_period "Tuesday Night" 44; sample_period "Wednesday" 63])])].

Definition sample_alerts : value :=
  PDict [("features", PList
    [PDict [("properties",
             PDict [("event", PStr "Flood Warning"); ("areaDesc", PStr "Yolo")])];
     PDict [("properties", PDict [])]])].

Definition sample_points_request : request :=
  nws_request (PStr (points_url sample_repr_float 38.5%float (-77)%float)).

Definition sample_alerts_request : request :=
  nws_request (PStr (alerts_url "CA")).

(** A points response that is a non-empty record with no "properties". *)
Definition points_without_properties : value :=
  PDict [("title", PStr "Not Found"); ("status", PInt 404)].

(** A points response whose property bag has no "forecast". *)
Definition points_without_forecast : value :=
  PDict [("properties", PDict [("gridId", PStr "LWX")])].

(** The first field of the period template, in the order the template
    reads them, that a record lacks. *)
Definition first_missing (d : dict) : option string :=
  find (fun k => negb (has_key d k)) period_fields.

(** The requests one [get_forecast] adds after the points request: the
    forecast URL, when the points data holds one. *)
Definition follow_up (points_data : value) : list request :=
  match nested points_data "properties" "forecast" with
  | Some forecast_url => [nws_request forecast_url]
  | None => []
  end.

Definition starts_with_newline (s : string) : Prop :=
  exists rest, s = nl ++ rest.

(** After [n] earlier requests the next one gets [first], every other
    one [second]. *)
Definition net_after (n : nat) (first second : http_outcome) : network :=
  fun sent _ => if Nat.eqb (length sent) n then first else second.

Definition forecast_of (periods : list value) : value :=
  PDict [("properties", PDict [("periods", PList periods)])].

Definition two_periods : list value :=
  [sample_period "Tonight" 41; sample_period "Monday" 58].

(** The second period lacks everything but its name. *)
Definition broken_periods : list value :=
  [sample_period "Tonight" 41; PDict [("name", PStr "Monday")];
   sample_period "Monday Night" 39].

Definition five_periods : list value :=
  [sample_period "Tonight" 41; sample_period "Monday" 58;
   sample_period "Monday Night" 39; sample_period "Tuesday" 61;
   sample_period "Tuesday Night" 44].

Definition sample_feature : value :=
  PDict [("properties",
          PDict [("event", PStr "Flood Warning"); ("severity", PNone)])].

(** The second feature has no property bag. *)
Definition broken_features : list value :=
  [sample_feature; PDict [("id", PStr "urn:oid:1")]; PInt 7].

Definition alerts_of (features : list value) : value :=
  PDict [("features", PList features)].

Definition forecast_requests : list request :=
  [sample_points_request; nws_request sample_forecast_url].



(** ** Running a computation step by step *)

Lemma bind_ret {A B} (m : M A) (k : A -> M B) l a l' :
  m l = (Ret a, l') -> bind m k l = k a l'.
Proof. intros H. unfold bind. now rewrite H. Qed.

Lemma bind_raise {A B} (m : M A) (k : A -> M B) l e l' :
  m l = (Raise e, l') -> bind m k l = (Raise e, l').
Proof. intros H. unfold bind. now rewrite H. Qed.

Lemma bind_lift_ret {A B} (r : result A) (k : A -> M B) l a :
  r = Ret a -> bind (lift r) k l = k a l.
Proof. intros ->. reflexivity. Qed.

Lemma bind_lift_raise {A B} (r : result A) (k : A -> M B) l e :
  r = Raise e -> bind (lift r) k l = (Raise e, l).
Proof. intros ->. reflexivity. Qed.

(** One call of [make_nws_request] sends one request and hands back
    what [delivered] says, whatever the outcome. *)
Lemma make_nws_request_run net url l :
  make_nws_request net url l =
  (Ret (delivered (net l (nws_request url))), (l ++ [nws_request url])%list).
Proof.
  unfold make_nws_request, try_except, bind, client_get.
  fold (nws_request url).
  destruct (net l (nws_request url)) as [e | r]; simpl; [reflexivity |].
  unfold raise_for_status, json, lift.
  destruct (is_success r); [| reflexivity].
  destruct (json_body r); reflexivity.
Qed.

Lemma make_nws_request_sent net url l v l' :
  make_nws_request net url l = (Ret v, l') ->
  l' = (l ++ [nws_request url])%list.
Proof. rewrite make_nws_request_run. now intros [= _ <-]. Qed.

(** A comprehension whose function succeeds on every element returns
    the mapped list; one failing element makes it raise. *)
Lemma map_result_all {A B} (f : A -> result B) (g : A -> B) (xs : list A) :
  Forall (fun x => f x = Ret (g x)) xs -> map_result f xs = Ret (map g xs).
Proof.
  induction 1 as [| x xs Hx _ IH]; simpl; [reflexivity |].
  now rewrite Hx, IH.
Qed.

Lemma map_result_raises {A B} (f : A -> result B) (xs : list A) x e :
  In x xs -> f x = Raise e -> exists e', map_result f xs = Raise e'.
Proof.
  induction xs as [| y ys IH]; simpl; [contradiction |].
  intros [-> | Hin] Hx.
  - rewrite Hx. now exists e.
  - destruct (f y) as [b | e0]; simpl; [| now exists e0].
    destruct (IH Hin Hx) as [e' ->]. now exists e'.
Qed.

Lemma nested_getitem v k1 k2 x :
  nested v k1 k2 = Some x ->
  truthy v = true /\
  exists d', getitem v k1 = Ret (PDict d') /\ getitem (PDict d') k2 = Ret x.
Proof.
  destruct v as [| | | | | | d]; try discriminate. simpl.
  destruct d as [| kv d]; [discriminate |].
  destruct (dict_lookup (kv :: d) k1) as [[| | | | | | d'] |]; try discriminate.
  intros H. split; [reflexivity |]. exists d'. now rewrite H.
Qed.

(** ** The fetcher *)

(** C8. [make_nws_request] never raises: a request that fails in
    transport (network error, timeout, any exception out of
    [client.get]), a response with a status outside 2xx and a body that
    does not decode all come back as [None]; a 2xx response with a
    decodable body comes back as the decoded value.  Each call sends
    one request. *)
Theorem make_nws_request_absent_on_failure :
  forall (net : network) (url : value) (l : list request),
    let rq := nws_request url in
    let sent := (l ++ [rq])%list in
    (exists v, make_nws_request net url l = (Ret v, sent)) /\
    (forall e, net l rq = Failed e ->
       make_nws_request net url l = (Ret PNone, sent)) /\
    (forall r, net l rq = Responded r -> is_success r = false ->
       make_nws_request net url l = (Ret PNone, sent)) /\
    (forall r, net l rq = Responded r -> json_body r = None ->
       make_nws_request net url l = (Ret PNone, sent)) /\
    (forall r v, net l rq = Responded r -> is_success r = true ->
       json_body r = Some v ->
       make_nws_request net url l = (Ret v, sent)).
Proof.
  intros net url l rq sent. subst rq sent.
  rewrite make_nws_request_run.
  repeat split.
  - eexists; reflexivity.
  - intros e ->. reflexivity.
  - intros r -> Hs. simpl. now rewrite Hs.
  - intros r -> Hj. simpl. rewrite Hj. now destruct (is_success r).
  - intros r v -> Hs Hj. simpl. now rewrite Hs, Hj.
Qed.

Lemma make_nws_request_absent_on_failure_witness :
  make_nws_request net_down (PStr "https://api.weather.gov/points/0,0") [] =
    (Ret PNone, [nws_request (PStr "https://api.weather.gov/points/0,0")]) /\
  make_nws_request (net_const sample_points) (PStr "https://api.weather.gov/points/0,0") [] =
    (Ret sample_points, [nws_request (PStr "https://api.weather.gov/points/0,0")]).
Proof.
  split.
  - apply (proj1 (proj2 (make_nws_request_absent_on_failure
             net_down (PStr "https://api.weather.gov/points/0,0") []))
             TimeoutException).
    reflexivity.
  - apply (proj2 (proj2 (proj2 (proj2 (make_nws_request_absent_on_failure
             (net_const sample_points) (PStr "https://api.weather.gov/points/0,0") []))))
             {| status_code := 200; json_body := Some sample_points |} sample_points);
      reflexivity.
Defined.

(** ** The alert handler *)

Section Alerts.
Variable repr_float : float -> string.
Variable repr_str : string -> string.
Variable net : network.

Local Abbreviation get_alerts := (Weather.get_alerts repr_float repr_str net).
Local Abbreviation format_alert := (Weather.format_alert repr_float repr_str).

(** C6. When the fetch returns [None], and when it returns a record
    without a "features" key, [get_alerts] returns exactly
    "Unable to fetch alerts or no alerts found.". *)
Theorem get_alerts_unable_to_fetch :
  forall (state : string) (l l1 : list request) (data : value),
    make_nws_request net (PStr (alerts_url state)) l = (Ret data, l1) ->
    data = PNone \/ (exists d, data = PDict d /\ dict_lookup d "features" = None) ->
    get_alerts state l = (Ret "Unable to fetch alerts or no alerts found.", l1).
Proof.
  intros state l l1 data Hfetch Hdata.
  unfold Weather.get_alerts. rewrite (bind_ret _ _ _ _ _ Hfetch).
  destruct Hdata as [-> | (d & -> & Hno)]; [reflexivity |].
  destruct d as [| kv d]; [reflexivity |].
  cbn [truthy negb]. unfold bind at 1. cbn [lift contains bind].
  now rewrite Hno.
Qed.

(** C5. When the response holds a "features" key whose value is the
    empty list, [get_alerts] returns exactly
    "No active alerts for this state.". *)
Theorem get_alerts_no_active_alerts :
  forall (state : string) (l l1 : list request) (data : value) (d : dict),
    make_nws_request net (PStr (alerts_url state)) l = (Ret data, l1) ->
    data = PDict d ->
    dict_lookup d "features" = Some (PList []) ->
    get_alerts state l = (Ret "No active alerts for this state.", l1).
Proof.
  intros state l l1 data d Hfetch -> Hfs.
  unfold Weather.get_alerts. rewrite (bind_ret _ _ _ _ _ Hfetch).
  destruct d as [| kv d]; [discriminate |].
  cbn [truthy negb]. unfold bind, lift, ret, contains, getitem.
  now rewrite Hfs.
Qed.

Lemma format_alert_block feature :
  is_feature feature = true -> format_alert feature = Ret (alert_block repr_float repr_str feature).
Proof.
  unfold is_feature, alert_block, Weather.format_alert.
  destruct feature as [| | | | | | d]; simpl; try discriminate.
  destruct (dict_lookup d "properties") as [[| | | | | | bag] |]; try discriminate.
  intros _. unfold shown_or, get. cbn [rbind].
  destruct (dict_lookup bag "event"), (dict_lookup bag "areaDesc"),
    (dict_lookup bag "severity"), (dict_lookup bag "description"),
    (dict_lookup bag "instruction"); reflexivity.
Qed.

(** C4. When the response holds N >= 1 features under "features",
    [get_alerts] returns N blocks, one per feature in the order
    received, joined by the separator line; in a block, an optional
    property the bag lacks is shown as its placeholder. *)
Theorem get_alerts_formats_every_feature :
  forall (state : string) (l l1 : list request) (data : value) (d : dict)
         (features : list value),
    make_nws_request net (PStr (alerts_url state)) l = (Ret data, l1) ->
    data = PDict d ->
    dict_lookup d "features" = Some (PList features) ->
    1 <= length features ->
    Forall (fun f => is_feature f = true) features ->
    get_alerts state l =
      (Ret (join (nl ++ "---" ++ nl) (map (alert_block repr_float repr_str) features)), l1) /\
    length (map (alert_block repr_float repr_str) features) = length features /\
    (forall bag key placeholder,
       dict_lookup bag key = None ->
       shown_or repr_float repr_str bag key placeholder = placeholder).
Proof.
  intros state l l1 data d features Hfetch -> Hfs Hlen Hall.
  split; [| split].
  - unfold Weather.get_alerts. rewrite (bind_ret _ _ _ _ _ Hfetch).
    destruct d as [| kv d]; [discriminate |].
    cbn [truthy negb]. unfold bind, lift, ret, contains, getitem.
    rewrite Hfs.
    destruct features as [| f fs]; [simpl in Hlen; lia |].
    cbn [truthy negb iter].
    rewrite (map_result_all _ (alert_block repr_float repr_str)).
    + reflexivity.
    + eapply Forall_impl; [| exact Hall]. intros a. apply format_alert_block.
  - apply length_map.
  - intros bag key placeholder H. unfold shown_or. now rewrite H.
Qed.

(** C10. The property bag itself is required: on a feature without a
    "properties" key [format_alert] raises [KeyError], and [get_alerts]
    raises on a response whose feature list contains such a feature. *)
Theorem format_alert_requires_properties :
  (forall fd : dict,
     dict_lookup fd "properties" = None ->
     format_alert (PDict fd) = Raise (KeyError "properties")) /\
  (forall (state : string) (l l1 : list request) (data : value) (d fd : dict)
          (features : list value),
     make_nws_request net (PStr (alerts_url state)) l = (Ret data, l1) ->
     data = PDict d ->
     dict_lookup d "features" = Some (PList features) ->
     In (PDict fd) features ->
     dict_lookup fd "properties" = None ->
     exists e, get_alerts state l = (Raise e, l1)).
Proof.
  assert (Hfa : forall fd : dict, dict_lookup fd "properties" = None ->
            format_alert (PDict fd) = Raise (KeyError "properties")).
  { intros fd H. unfold Weather.format_alert, getitem. now rewrite H. }
  split; [exact Hfa |].
  intros state l l1 data d fd features Hfetch -> Hfs Hin Hno.
  unfold Weather.get_alerts. rewrite (bind_ret _ _ _ _ _ Hfetch).
  destruct d as [| kv d]; [discriminate |].
  cbn [truthy negb]. unfold bind, lift, ret, contains, getitem.
  rewrite Hfs.
  destruct features as [| f fs]; [contradiction |].
  cbn [truthy negb iter].
  destruct (map_result_raises format_alert (f :: fs) (PDict fd) _ Hin (Hfa fd Hno))
    as [e' ->].
  now exists e'.
Qed.

(** What [get_alerts] returns depends on the fetched data alone, not
    on the network, the state code or the requests sent before. *)
Lemma get_alerts_depends_on_data_only
    (net' : network) state state' l l1 l' l1' data :
  make_nws_request net (PStr (alerts_url state)) l = (Ret data, l1) ->
  make_nws_request net' (PStr (alerts_url state')) l' = (Ret data, l1') ->
  fst (get_alerts state l) = fst (Weather.get_alerts repr_float repr_str net' state' l').
Proof.
  intros H H'. unfold Weather.get_alerts.
  rewrite (bind_ret _ _ _ _ _ H), (bind_ret _ _ _ _ _ H').
  unfold bind, lift, ret.
  destruct (truthy data); cbn [negb]; [| reflexivity].
  destruct (contains data "features") as [[|] |]; cbn [negb]; try reflexivity.
  destruct (getitem data "features") as [fs |]; [| reflexivity].
  destruct (truthy fs); cbn [negb]; [| reflexivity].
  destruct (iter fs) as [items |]; [| reflexivity].
  destruct (map_result format_alert items); reflexivity.
Qed.

End Alerts.

(** ** The forecast handler *)

Section Forecast.
Variable repr_float : float -> string.
Variable repr_str : string -> string.
Variable net : network.

Local Abbreviation get_forecast := (Weather.get_forecast repr_float repr_str net).
Local Abbreviation format_period := (Weather.format_period repr_float repr_str).
Local Abbreviation points_url := (Weather.points_url repr_float).

Lemma format_period_block period :
  is_period period = true ->
  format_period period = Ret (period_block repr_float repr_str period).
Proof.
  destruct period as [| | | | | | d]; try discriminate.
  unfold is_period, period_fields, forallb, has_key.
  unfold Weather.format_period, period_block, shown, shown_or, getitem.
  destruct (dict_lookup d "name"); [| discriminate].
  destruct (dict_lookup d "temperature"); [| discriminate].
  destruct (dict_lookup d "temperatureUnit"); [| discriminate].
  destruct (dict_lookup d "windSpeed"); [| discriminate].
  destruct (dict_lookup d "windDirection"); [| discriminate].
  destruct (dict_lookup d "detailedForecast"); [| discriminate].
  reflexivity.
Qed.

(** C2. When the points fetch returns [None], [get_forecast] returns
    exactly "Unable to fetch forecast data for this location." and the
    invocation has sent that one request only. *)
Theorem get_forecast_points_absent :
  forall (latitude longitude : float) (l l1 : list request),
    make_nws_request net (PStr (points_url latitude longitude)) l = (Ret PNone, l1) ->
    get_forecast latitude longitude l =
      (Ret "Unable to fetch forecast data for this location.", l1) /\
    l1 = (l ++ [nws_request (PStr (points_url latitude longitude))])%list /\
    length l1 = length l + 1.
Proof.
  intros latitude longitude l l1 Hfetch.
  split; [| split].
  - unfold Weather.get_forecast. now rewrite (bind_ret _ _ _ _ _ Hfetch).
  - exact (make_nws_request_sent _ _ _ _ _ Hfetch).
  - rewrite (make_nws_request_sent _ _ _ _ _ Hfetch), length_app. reflexivity.
Qed.

(** C1, as the code has it.  A points response that is a non-empty
    record without a forecast URL is not answered with a message.  The
    subscript raises [KeyError] naming the missing key: "properties"
    when the record has no such key, "forecast" when its property bag
    has none.  The exception leaves [get_forecast], and the points
    request is the only one sent. *)
Theorem get_forecast_missing_forecast_url_raises :
  forall (latitude longitude : float) (l l1 : list request) (d : dict),
    make_nws_request net (PStr (points_url latitude longitude)) l = (Ret (PDict d), l1) ->
    truthy (PDict d) = true ->
    (dict_lookup d "properties" = None ->
     get_forecast latitude longitude l = (Raise (KeyError "properties"), l1)) /\
    (forall bag : dict,
       dict_lookup d "properties" = Some (PDict bag) ->
       dict_lookup bag "forecast" = None ->
       get_forecast latitude longitude l = (Raise (KeyError "forecast"), l1)) /\
    l1 = (l ++ [nws_request (PStr (points_url latitude longitude))])%list.
Proof.
  intros latitude longitude l l1 d Hfetch Ht.
  split; [| split].
  - intros Hno.
    unfold Weather.get_forecast. rewrite (bind_ret _ _ _ _ _ Hfetch), Ht.
    cbn [negb]. apply bind_lift_raise.
    unfold getitem. now rewrite Hno.
  - intros bag Hbag Hno.
    unfold Weather.get_forecast. rewrite (bind_ret _ _ _ _ _ Hfetch), Ht.
    cbn [negb].
    rewrite (bind_lift_ret _ _ _ (PDict bag)); [| unfold getitem; now rewrite Hbag].
    apply bind_lift_raise. unfold getitem. now rewrite Hno.
  - exact (make_nws_request_sent _ _ _ _ _ Hfetch).
Qed.

(** C7. When the points fetch delivers a record with a forecast URL
    and the fetch of that URL returns [None], [get_forecast] returns
    exactly "Unable to fetch detailed forecast.". *)
Theorem get_forecast_detail_absent :
  forall (latitude longitude : float) (l l1 l2 : list request)
         (points_data forecast_url : value),
    make_nws_request net (PStr (points_url latitude longitude)) l = (Ret points_data, l1) ->
    nested points_data "properties" "forecast" = Some forecast_url ->
    make_nws_request net forecast_url l1 = (Ret PNone, l2) ->
    get_forecast latitude longitude l = (Ret "Unable to fetch detailed forecast.", l2).
Proof.
  intros latitude longitude l l1 l2 pd u Hfetch Hurl Hdetail.
  destruct (nested_getitem _ _ _ _ Hurl) as (Ht & bag & Hp & Hf).
  unfold Weather.get_forecast. rewrite (bind_ret _ _ _ _ _ Hfetch), Ht.
  cbn [negb].
  rewrite (bind_lift_ret _ _ _ _ Hp), (bind_lift_ret _ _ _ _ Hf).
  now rewrite (bind_ret _ _ _ _ _ Hdetail).
Qed.

(** C3. When both fetches succeed and the forecast holds N >= 5
    periods, [get_forecast] returns exactly five blocks joined by the
    separator line: those of the first five periods, in the order
    received.  Only these five need to be complete period records. *)
Theorem get_forecast_first_five_periods :
  forall (latitude longitude : float) (l l1 l2 : list request)
         (points_data forecast_url forecast_data : value) (periods : list value),
    make_nws_request net (PStr (points_url latitude longitude)) l = (Ret points_data, l1) ->
    nested points_data "properties" "forecast" = Some forecast_url ->
    make_nws_request net forecast_url l1 = (Ret forecast_data, l2) ->
    nested forecast_data "properties" "periods" = Some (PList periods) ->
    5 <= length periods ->
    Forall (fun p => is_period p = true) (firstn 5 periods) ->
    get_forecast latitude longitude l =
      (Ret (join (nl ++ "---" ++ nl)
              (map (period_block repr_float repr_str) (firstn 5 periods))), l2) /\
    length (map (period_block repr_float repr_str) (firstn 5 periods)) = 5.
Proof.
  intros latitude longitude l l1 l2 pd u fd periods Hfetch Hurl Hdetail Hps Hlen Hall.
  destruct (nested_getitem _ _ _ _ Hurl) as (Ht & bag & Hp & Hf).
  destruct (nested_getitem _ _ _ _ Hps) as (Ht' & bag' & Hp' & Hf').
  split.
  - unfold Weather.get_forecast. rewrite (bind_ret _ _ _ _ _ Hfetch), Ht.
    cbn [negb].
    rewrite (bind_lift_ret _ _ _ _ Hp), (bind_lift_ret _ _ _ _ Hf).
    rewrite (bind_ret _ _ _ _ _ Hdetail), Ht'.
    cbn [negb].
    rewrite (bind_lift_ret _ _ _ _ Hp'), (bind_lift_ret _ _ _ _ Hf').
    cbn [slice_to]. rewrite (bind_lift_ret _ _ _ _ eq_refl).
    cbn [iter]. rewrite (bind_lift_ret _ _ _ _ eq_refl).
    rewrite (bind_lift_ret _ _ _ _
               (map_result_all _ (period_block repr_float repr_str) _
                  (Forall_impl _ format_period_block Hall))).
    reflexivity.
  - rewrite length_map. now apply firstn_length_le.
Qed.

End Forecast.

(** ** The theorems at sample inputs *)

(** The templates on concrete records. *)
Example format_alert_empty_bag :
  format_alert sample_repr_float sample_repr_str (PDict [("properties", PDict [])]) =
  Ret "
                Event: Unknown
                Area: Unknown
                Severity: Unknown
                Description: No description available
                Instructions: No specific instructions provided
            ".
Proof. reflexivity. Qed.

Example format_period_tonight :
  format_period sample_repr_float sample_repr_str (sample_period "Tonight" 41) =
  Ret "
Tonight:
Temperature: 41°F
Wind: 5 mph NW
Forecast: Clear.
".
Proof. reflexivity. Qed.

Example format_period_missing_field :
  format_period sample_repr_float sample_repr_str
    (PDict [("name", PStr "Tonight"); ("temperature", PInt 41)]) =
  Raise (KeyError "temperatureUnit").
Proof. reflexivity. Qed.

(** Outside the declared return type of [make_nws_request]: a bare
    JSON number is truthy and not a container, so the [in] test of
    [get_alerts] raises. *)
Example get_alerts_on_a_number :
  get_alerts sample_repr_float sample_repr_str (net_const (PInt 5)) "CA" [] =
  (Raise TypeError, [sample_alerts_request]).
Proof. reflexivity. Qed.

Example separator_text : separator = "
---
".
Proof. reflexivity. Qed.

(** C1 does not hold as stated: both sample responses are truthy and
    lack the forecast URL, and [get_forecast] raises [KeyError] on them
    instead of returning a message. *)
Lemma get_forecast_missing_forecast_url_counterexample :
  truthy points_without_properties = true /\
  lacks_forecast_url points_without_properties /\
  get_forecast sample_repr_float sample_repr_str
      (net_const points_without_properties) 38.5%float (-77)%float [] =
    (Raise (KeyError "properties"), [sample_points_request]) /\
  truthy points_without_forecast = true /\
  lacks_forecast_url points_without_forecast /\
  get_forecast sample_repr_float sample_repr_str
      (net_const points_without_forecast) 38.5%float (-77)%float [] =
    (Raise (KeyError "forecast"), [sample_points_request]) /\
  ~ (exists message sent,
       get_forecast sample_repr_float sample_repr_str
         (net_const points_without_properties) 38.5%float (-77)%float [] =
       (Ret message, sent)).
Proof.
  repeat split.
  - eexists; split; [reflexivity |]. left. reflexivity.
  - eexists; split; [reflexivity |]. right. eexists; split; reflexivity.
  - intros (message & sent & H). vm_compute in H. discriminate.
Qed.

Lemma get_forecast_missing_forecast_url_raises_witness :
  get_forecast sample_repr_float sample_repr_str
      (net_const points_without_properties) 38.5%float (-77)%float [] =
    (Raise (KeyError "properties"), [sample_points_request]) /\
  get_forecast sample_repr_float sample_repr_str
      (net_const points_without_forecast) 38.5%float (-77)%float [] =
    (Raise (KeyError "forecast"), [sample_points_request]).
Proof.
  split.
  - apply (proj1 (get_forecast_missing_forecast_url_raises
                    sample_repr_float sample_repr_str
                    (net_const points_without_properties) 38.5%float (-77)%float []
                    [sample_points_request]
                    [("title", PStr "Not Found"); ("status", PInt 404)]
                    eq_refl eq_refl)).
    reflexivity.
  - apply (proj1 (proj2 (get_forecast_missing_forecast_url_raises
                    sample_repr_float sample_repr_str
                    (net_const points_without_forecast) 38.5%float (-77)%float []
                    [sample_points_request]
                    [("properties", PDict [("gridId", PStr "LWX")])]
                    eq_refl eq_refl))
             [("gridId", PStr "LWX")]);
      reflexivity.
Defined.

Lemma get_forecast_points_absent_witness :
  get_forecast sample_repr_float sample_repr_str net_down 38.5%float (-77)%float [] =
    (Ret "Unable to fetch forecast data for this location.", [sample_points_request]) /\
  [sample_points_request] = ([] ++ [sample_points_request])%list /\
  length [sample_points_request] = length (@nil request) + 1.
Proof.
  apply (get_forecast_points_absent sample_repr_float sample_repr_str net_down
           38.5%float (-77)%float [] [sample_points_request]).
  reflexivity.
Defined.

Lemma get_forecast_first_five_periods_witness :
  get_forecast sample_repr_float sample_repr_str
      (net_two (ok sample_points) (ok sample_forecast)) 38.5%float (-77)%float [] =
    (Ret (join (nl ++ "---" ++ nl)
            (map (period_block sample_repr_float sample_repr_str)
               [sample_period "Tonight" 41; sample_period "Monday" 58;
                sample_period "Monday Night" 39; sample_period "Tuesday" 61;
                sample_period "Tuesday Night" 44])),
     [sample_points_request; nws_request sample_forecast_url]) /\
  length (map (period_block sample_repr_float sample_repr_str)
            [sample_period "Tonight" 41; sample_period "Monday" 58;
             sample_period "Monday Night" 39; sample_period "Tuesday" 61;
             sample_period "Tuesday Night" 44]) = 5.
Proof.
  apply (get_forecast_first_five_periods sample_repr_float sample_repr_str
           (net_two (ok sample_points) (ok sample_forecast)) 38.5%float (-77)%float
           [] [sample_points_request]
           [sample_points_request; nws_request sample_forecast_url]
           sample_points sample_forecast_url sample_forecast
           [sample_period "Tonight" 41; sample_period "Monday" 58;
            sample_period "Monday Night" 39; sample_period "Tuesday" 61;
            sample_period "Tuesday Night" 44; sample_period "Wednesday" 63]).
  - reflexivity.
  - reflexivity.
  - reflexivity.
  - reflexivity.
  - simpl. lia.
  - repeat constructor.
Defined.

Lemma get_alerts_formats_every_feature_witness :
  get_alerts sample_repr_float sample_repr_str (net_const sample_alerts) "CA" [] =
    (Ret (join (nl ++ "---" ++ nl)
            (map (alert_block sample_repr_float sample_repr_str)
               [PDict [("properties",
                        PDict [("event", PStr "Flood Warning"); ("areaDesc", PStr "Yolo")])];
                PDict [("properties", PDict [])]])),
     [sample_alerts_request]) /\
  length (map (alert_block sample_repr_float sample_repr_str)
            [PDict [("properties",
                     PDict [("event", PStr "Flood Warning"); ("areaDesc", PStr "Yolo")])];
             PDict [("properties", PDict [])]]) = 2 /\
  (forall bag key placeholder,
     dict_lookup bag key = None ->
     shown_or sample_repr_float sample_repr_str bag key placeholder = placeholder).
Proof.
  apply (get_alerts_formats_every_feature sample_repr_float sample_repr_str
           (net_const sample_alerts) "CA" [] [sample_alerts_request] sample_alerts
           [("features", PList
              [PDict [("properties",
                       PDict [("event", PStr "Flood Warning"); ("areaDesc", PStr "Yolo")])];
               PDict [("properties", PDict [])]])]).
  - reflexivity.
  - reflexivity.
  - reflexivity.
  - simpl. lia.
  - repeat constructor.
Defined.

Lemma get_alerts_no_active_alerts_witness :
  get_alerts sample_repr_float sample_repr_str
      (net_const (PDict [("features", PList [])])) "CA" [] =
    (Ret "No active alerts for this state.", [sample_alerts_request]).
Proof.
  apply (get_alerts_no_active_alerts sample_repr_float sample_repr_str
           (net_const (PDict [("features", PList [])])) "CA" [] [sample_alerts_request]
           (PDict [("features", PList [])]) [("features", PList [])]);
    reflexivity.
Defined.

Lemma get_alerts_unable_to_fetch_witness :
  get_alerts sample_repr_float sample_repr_str net_down "CA" [] =
    (Ret "Unable to fetch alerts or no alerts found.", [sample_alerts_request]) /\
  get_alerts sample_repr_float sample_repr_str
      (net_const points_without_properties) "CA" [] =
    (Ret "Unable to fetch alerts or no alerts found.", [sample_alerts_request]).
Proof.
  split.
  - apply (get_alerts_unable_to_fetch sample_repr_float sample_repr_str net_down
             "CA" [] [sample_alerts_request] PNone).
    + reflexivity.
    + left. reflexivity.
  - apply (get_alerts_unable_to_fetch sample_repr_float sample_repr_str
             (net_const points_without_properties) "CA" [] [sample_alerts_request]
             points_without_properties).
    + reflexivity.
    + right. eexists. split; reflexivity.
Defined.

Lemma get_forecast_detail_absent_witness :
  get_forecast sample_repr_float sample_repr_str
      (net_two (ok sample_points) (Failed TimeoutException)) 38.5%float (-77)%float [] =
    (Ret "Unable to fetch detailed forecast.",
     [sample_points_request; nws_request sample_forecast_url]).
Proof.
  apply (get_forecast_detail_absent sample_repr_float sample_repr_str
           (net_two (ok sample_points) (Failed TimeoutException))
           38.5%float (-77)%float [] [sample_points_request]
           [sample_points_request; nws_request sample_forecast_url]
           sample_points sample_forecast_url);
    reflexivity.
Defined.

Lemma format_alert_requires_properties_witness :
  format_alert sample_repr_float sample_repr_str (PDict [("id", PStr "urn:oid:1")]) =
    Raise (KeyError "properties") /\
  exists e,
    get_alerts sample_repr_float sample_repr_str
        (net_const (PDict [("features", PList [PDict [("id", PStr "urn:oid:1")]])]))
        "CA" [] =
      (Raise e, [sample_alerts_request]).
Proof.
  split.
  - apply (proj1 (format_alert_requires_properties sample_repr_float sample_repr_str
                    net_down) [("id", PStr "urn:oid:1")]).
    reflexivity.
  - apply (proj2 (format_alert_requires_properties sample_repr_float sample_repr_str
                    (net_const (PDict [("features", PList [PDict [("id", PStr "urn:oid:1")]])])))
             "CA" [] [sample_alerts_request]
             (PDict [("features", PList [PDict [("id", PStr "urn:oid:1")]])])
             [("features", PList [PDict [("id", PStr "urn:oid:1")]])]
             [("id", PStr "urn:oid:1")]
             [PDict [("id", PStr "urn:oid:1")]]).
    + reflexivity.
    + reflexivity.
    + reflexivity.
    + left. reflexivity.
    + reflexivity.
Defined.

(** * Further properties of the handlers *)

(** ** Comprehensions *)

(** The exception of a comprehension is that of the first element that
    raises; the elements after it are not evaluated. *)
Lemma map_result_first_failure {A B} (f : A -> result B) (good rest : list A) bad e :
  Forall (fun x => exists y, f x = Ret y) good ->
  f bad = Raise e ->
  map_result f (good ++ bad :: rest) = Raise e.
Proof.
  intros Hgood Hbad.
  induction Hgood as [| x xs [y Hx] _ IH]; simpl.
  - now rewrite Hbad.
  - now rewrite Hx, IH.
Qed.

Lemma map_result_Forall2 {A B} (f : A -> result B) (xs : list A) (ys : list B) :
  map_result f xs = Ret ys -> Forall2 (fun x y => f x = Ret y) xs ys.
Proof.
  revert ys. induction xs as [| x xs IH]; simpl; intros ys H.
  - injection H as <-. constructor.
  - destruct (f x) as [y |] eqn:Hx; [| discriminate]. simpl in H.
    destruct (map_result f xs) as [ys' |]; [| discriminate]. simpl in H.
    injection H as <-. constructor; auto.
Qed.

Lemma join_starts_with_newline sep b bs :
  starts_with_newline b -> starts_with_newline (join sep (b :: bs)).
Proof.
  intros [rest ->]. destruct bs as [| b' bs]; simpl.
  - now exists rest.
  - now eexists.
Qed.

Lemma nested_none_getitem v k1 k2 :
  nested v k1 k2 = None ->
  truthy v = false \/
  (exists e, getitem v k1 = Raise e) \/
  (exists x e, getitem v k1 = Ret x /\ getitem x k2 = Raise e).
Proof.
  destruct v as [| b | z | f | s | items | d]; simpl; intros H.
  - now left.
  - destruct b; [right; left; now eexists | now left].
  - right; left; now eexists.
  - right; left; now eexists.
  - right; left; now eexists.
  - right; left; now eexists.
  - right. destruct (dict_lookup d k1) as [x |]; [| left; now eexists].
    right. exists x.
    destruct x as [| | | | | | d']; try (eexists; split; reflexivity).
    simpl. rewrite H. eexists; split; reflexivity.
Qed.

Section Requests.
Variable repr_float : float -> string.
Variable repr_str : string -> string.
Variable net : network.

Local Abbreviation get_alerts := (Weather.get_alerts repr_float repr_str net).
Local Abbreviation get_forecast := (Weather.get_forecast repr_float repr_str net).
Local Abbreviation format_alert := (Weather.format_alert repr_float repr_str).
Local Abbreviation format_period := (Weather.format_period repr_float repr_str).
Local Abbreviation points_url := (Weather.points_url repr_float).

(** Once the data holds a non-empty feature list, the result of
    [get_alerts] is that of the comprehension. *)
Lemma get_alerts_features_run state l l1 d f fs :
  make_nws_request net (PStr (alerts_url state)) l = (Ret (PDict d), l1) ->
  dict_lookup d "features" = Some (PList (f :: fs)) ->
  get_alerts state l =
    (rbind (map_result format_alert (f :: fs)) (fun bs => Ret (join separator bs)), l1).
Proof.
  intros Hfetch Hfs.
  unfold Weather.get_alerts. rewrite (bind_ret _ _ _ _ _ Hfetch).
  destruct d as [| kv d]; [discriminate |].
  cbn [truthy negb]. unfold bind, lift, ret, contains, getitem.
  rewrite Hfs. cbn [truthy negb iter].
  destruct (map_result format_alert (f :: fs)); reflexivity.
Qed.

(** Once both fetches have delivered and the forecast holds a list of
    periods, the result of [get_forecast] is that of the loop over the
    first five. *)
Lemma get_forecast_periods_run latitude longitude l l1 l2 pd u fd periods :
  make_nws_request net (PStr (points_url latitude longitude)) l = (Ret pd, l1) ->
  nested pd "properties" "forecast" = Some u ->
  make_nws_request net u l1 = (Ret fd, l2) ->
  nested fd "properties" "periods" = Some (PList periods) ->
  get_forecast latitude longitude l =
    (rbind (map_result format_period (firstn 5 periods))
       (fun bs => Ret (join separator bs)), l2).
Proof.
  intros Hfetch Hurl Hdetail Hps.
  destruct (nested_getitem _ _ _ _ Hurl) as (Ht & bag & Hp & Hf).
  destruct (nested_getitem _ _ _ _ Hps) as (Ht' & bag' & Hp' & Hf').
  unfold Weather.get_forecast. rewrite (bind_ret _ _ _ _ _ Hfetch), Ht.
  cbn [negb].
  rewrite (bind_lift_ret _ _ _ _ Hp), (bind_lift_ret _ _ _ _ Hf).
  rewrite (bind_ret _ _ _ _ _ Hdetail), Ht'.
  cbn [negb].
  rewrite (bind_lift_ret _ _ _ _ Hp'), (bind_lift_ret _ _ _ _ Hf').
  cbn [slice_to]. rewrite (bind_lift_ret _ _ _ _ eq_refl).
  cbn [iter]. rewrite (bind_lift_ret _ _ _ _ eq_refl).
  unfold bind, lift, ret.
  destruct (map_result format_period (firstn 5 periods)); reflexivity.
Qed.

(** X1. Whatever the network answers and whatever comes of the answer
    (a message, the alert text or an exception), one [get_alerts] call
    sends exactly one request: a GET of the base URL followed by
    "/alerts/active/area/" and the state code as given, with the two
    fixed headers and the 30 second timeout. *)
Theorem get_alerts_sends_one_request :
  forall (state : string) (l : list request),
    snd (get_alerts state l) =
    (l ++ [{| req_url := PStr ("https://api.weather.gov/alerts/active/area/" ++ state);
              req_headers := [("User-Agent", "weather-app/1.0");
                              ("Accept", "application/geo+json")];
              req_timeout := 30%float |}])%list.
Proof.
  intros state l.
  unfold Weather.get_alerts.
  rewrite (bind_ret _ _ _ _ _ (make_nws_request_run net (PStr (alerts_url state)) l)).
  generalize (delivered (net l (nws_request (PStr (alerts_url state))))). intros data.
  unfold bind, lift, ret.
  destruct (truthy data); cbn [negb]; [| reflexivity].
  destruct (contains data "features") as [[|] |]; cbn [negb]; try reflexivity.
  destruct (getitem data "features") as [fs |]; [| reflexivity].
  destruct (truthy fs); cbn [negb]; [| reflexivity].
  destruct (iter fs) as [items |]; [| reflexivity].
  destruct (map_result format_alert items); reflexivity.
Qed.

(** X2. One [get_forecast] call sends the points request and then at
    most one more: the request for the forecast URL, sent exactly when
    the points data is a record holding properties.forecast, and sent to
    that value as it is.  This holds on every path, the raising ones
    included. *)
Theorem get_forecast_sends_at_most_two_requests :
  forall (latitude longitude : float) (l : list request),
    let first := nws_request (PStr (points_url latitude longitude)) in
    let sent := snd (get_forecast latitude longitude l) in
    sent = (l ++ first :: follow_up (delivered (net l first)))%list /\
    length l + 1 <= length sent <= length l + 2.
Proof.
  intros latitude longitude l first sent. subst sent.
  assert (H : snd (get_forecast latitude longitude l) =
              (l ++ first :: follow_up (delivered (net l first)))%list).
  { unfold Weather.get_forecast.
    rewrite (bind_ret _ _ _ _ _ (make_nws_request_run net _ l)).
    fold first. generalize (delivered (net l first)). intros pd.
    unfold follow_up.
    destruct (nested pd "properties" "forecast") as [u |] eqn:Hn.
    - destruct (nested_getitem _ _ _ _ Hn) as (Ht & bag & Hp & Hf).
      rewrite Ht. cbn [negb].
      rewrite (bind_lift_ret _ _ _ _ Hp), (bind_lift_ret _ _ _ _ Hf).
      rewrite (bind_ret _ _ _ _ _ (make_nws_request_run net u _)).
      rewrite <- app_assoc. cbn [app].
      generalize (delivered (net (l ++ [first])%list (nws_request u))). intros fd.
      unfold bind, lift, ret.
      destruct (truthy fd); cbn [negb]; [| reflexivity].
      destruct (getitem fd "properties") as [props |]; [| reflexivity].
      destruct (getitem props "periods") as [ps |]; [| reflexivity].
      destruct (slice_to 5 ps) as [shown |]; [| reflexivity].
      destruct (iter shown) as [items |]; [| reflexivity].
      destruct (map_result format_period items); reflexivity.
    - destruct (nested_none_getitem _ _ _ Hn) as [Ht | [[e He] | (x & e & Hx & He)]].
      + rewrite Ht. reflexivity.
      + destruct (truthy pd); cbn [negb]; [| reflexivity].
        now rewrite (bind_lift_raise _ _ _ _ He).
      + destruct (truthy pd); cbn [negb]; [| reflexivity].
        now rewrite (bind_lift_ret _ _ _ _ Hx), (bind_lift_raise _ _ _ _ He). }
  split; [exact H |]. rewrite H, length_app. cbn [length].
  unfold follow_up. destruct (nested _ _ _); cbn [length]; lia.
Qed.

End Requests.

(** ** Empty and null data *)

Section Falsy.
Variable repr_float : float -> string.
Variable repr_str : string -> string.
Variable net : network.

Local Abbreviation get_alerts := (Weather.get_alerts repr_float repr_str net).
Local Abbreviation get_forecast := (Weather.get_forecast repr_float repr_str net).
Local Abbreviation points_url := (Weather.points_url repr_float).

(** X3. [get_alerts] treats every falsy body like a failed fetch: when
    the fetch delivers [None], an empty record, an empty list, zero,
    [False] or an empty string, the answer is
    "Unable to fetch alerts or no alerts found.", and the "features"
    test is not evaluated. *)
Theorem get_alerts_falsy_data :
  forall (state : string) (l l1 : list request) (data : value),
    make_nws_request net (PStr (alerts_url state)) l = (Ret data, l1) ->
    truthy data = false ->
    get_alerts state l = (Ret "Unable to fetch alerts or no alerts found.", l1).
Proof.
  intros state l l1 data Hfetch Hf.
  unfold Weather.get_alerts. rewrite (bind_ret _ _ _ _ _ Hfetch), Hf.
  reflexivity.
Qed.

(** X4. A record whose "features" value is falsy without being an
    empty list (null, zero, an empty string, an empty record) is also
    answered with "No active alerts for this state.". *)
Theorem get_alerts_falsy_features :
  forall (state : string) (l l1 : list request) (d : dict) (features : value),
    make_nws_request net (PStr (alerts_url state)) l = (Ret (PDict d), l1) ->
    dict_lookup d "features" = Some features ->
    truthy features = false ->
    get_alerts state l = (Ret "No active alerts for this state.", l1).
Proof.
  intros state l l1 d features Hfetch Hfs Hf.
  unfold Weather.get_alerts. rewrite (bind_ret _ _ _ _ _ Hfetch).
  destruct d as [| kv d]; [discriminate |].
  cbn [truthy negb]. unfold bind, lift, ret, contains, getitem.
  now rewrite Hfs, Hf.
Qed.

(** X5. [get_forecast] treats every falsy points body like a failed
    fetch: the answer is "Unable to fetch forecast data for this
    location." and nothing is read from the body. *)
Theorem get_forecast_falsy_points :
  forall (latitude longitude : float) (l l1 : list request) (points_data : value),
    make_nws_request net (PStr (points_url latitude longitude)) l = (Ret points_data, l1) ->
    truthy points_data = false ->
    get_forecast latitude longitude l =
      (Ret "Unable to fetch forecast data for this location.", l1).
Proof.
  intros latitude longitude l l1 pd Hfetch Hf.
  unfold Weather.get_forecast. now rewrite (bind_ret _ _ _ _ _ Hfetch), Hf.
Qed.

(** X6. Likewise for the second fetch: any falsy forecast body gives
    "Unable to fetch detailed forecast.". *)
Theorem get_forecast_falsy_detail :
  forall (latitude longitude : float) (l l1 l2 : list request)
         (points_data forecast_url forecast_data : value),
    make_nws_request net (PStr (points_url latitude longitude)) l = (Ret points_data, l1) ->
    nested points_data "properties" "forecast" = Some forecast_url ->
    make_nws_request net forecast_url l1 = (Ret forecast_data, l2) ->
    truthy forecast_data = false ->
    get_forecast latitude longitude l = (Ret "Unable to fetch detailed forecast.", l2).
Proof.
  intros latitude longitude l l1 l2 pd u fd Hfetch Hurl Hdetail Hfalse.
  destruct (nested_getitem _ _ _ _ Hurl) as (Ht & bag & Hp & Hf).
  unfold Weather.get_forecast. rewrite (bind_ret _ _ _ _ _ Hfetch), Ht.
  cbn [negb].
  rewrite (bind_lift_ret _ _ _ _ Hp), (bind_lift_ret _ _ _ _ Hf).
  now rewrite (bind_ret _ _ _ _ _ Hdetail), Hfalse.
Qed.

End Falsy.

(** ** What the two templates accept *)

Section Templates.
Variable repr_float : float -> string.
Variable repr_str : string -> string.

Local Abbreviation format_alert := (Weather.format_alert repr_float repr_str).
Local Abbreviation format_period := (Weather.format_period repr_float repr_str).

(** X7. [format_alert] returns a block exactly on a record whose
    "properties" is itself a record, whatever the types of the values
    in it.  Otherwise it raises: [TypeError] on a feature that is not a
    record, [KeyError] on one without "properties", [AttributeError]
    when "properties" is not a record. *)
Theorem format_alert_outcome :
  forall feature : value,
    format_alert feature =
    match feature with
    | PDict d =>
        match dict_lookup d "properties" with
        | Some (PDict _) => Ret (alert_block repr_float repr_str feature)
        | Some _ => Raise AttributeError
        | None => Raise (KeyError "properties")
        end
    | _ => Raise TypeError
    end.
Proof.
  intros feature.
  destruct feature as [| | | | | | d]; try reflexivity.
  destruct (dict_lookup d "properties") as [[| | | | | | bag] |] eqn:Hp;
    try (unfold Weather.format_alert, getitem; rewrite Hp; reflexivity).
  apply format_alert_block. unfold is_feature, feature_props. now rewrite Hp.
Qed.

(** X8. The period template returns a block exactly on a record that
    holds all six fields.  On a record that lacks some, it raises
    [KeyError] for the first missing one in the order name,
    temperature, temperatureUnit, windSpeed, windDirection,
    detailedForecast; on anything that is not a record, [TypeError]. *)
Theorem format_period_outcome :
  forall period : value,
    format_period period =
    match period with
    | PDict d =>
        match first_missing d with
        | Some key => Raise (KeyError key)
        | None => Ret (period_block repr_float repr_str period)
        end
    | _ => Raise TypeError
    end.
Proof.
  intros period.
  destruct period as [| | | | | | d]; try reflexivity.
  unfold first_missing, period_fields, find, has_key.
  unfold Weather.format_period, period_block, shown, shown_or, getitem.
  destruct (dict_lookup d "name"); cbn [negb rbind]; [| reflexivity].
  destruct (dict_lookup d "temperature"); cbn [negb rbind]; [| reflexivity].
  destruct (dict_lookup d "temperatureUnit"); cbn [negb rbind]; [| reflexivity].
  destruct (dict_lookup d "windSpeed"); cbn [negb rbind]; [| reflexivity].
  destruct (dict_lookup d "windDirection"); cbn [negb rbind]; [| reflexivity].
  destruct (dict_lookup d "detailedForecast"); cbn [negb rbind]; reflexivity.
Qed.

Lemma format_alert_starts_with_newline feature block :
  format_alert feature = Ret block -> starts_with_newline block.
Proof.
  unfold Weather.format_alert.
  destruct (getitem feature "properties") as [props |]; [| discriminate].
  cbn [rbind].
  destruct (get props "event" _); [| discriminate].
  destruct (get props "areaDesc" _); [| discriminate].
  destruct (get props "severity" _); [| discriminate].
  destruct (get props "description" _); [| discriminate].
  destruct (get props "instruction" _); [| discriminate].
  cbn [rbind]. intros [= <-]. now eexists.
Qed.

Lemma format_period_starts_with_newline period block :
  format_period period = Ret block -> starts_with_newline block.
Proof.
  unfold Weather.format_period.
  destruct (getitem period "name"); [| discriminate].
  destruct (getitem period "temperature"); [| discriminate].
  destruct (getitem period "temperatureUnit"); [| discriminate].
  destruct (getitem period "windSpeed"); [| discriminate].
  destruct (getitem period "windDirection"); [| discriminate].
  destruct (getitem period "detailedForecast"); [| discriminate].
  cbn [rbind]. intros [= <-]. now eexists.
Qed.

End Templates.

(** ** The rendered text *)

Lemma iter_truthy_nonempty v items :
  truthy v = true -> iter v = Ret items -> items <> [].
Proof.
  destruct v as [| | | | s | xs | d]; simpl; try discriminate.
  - destruct s; [discriminate |]. intros _ [= <-]. discriminate.
  - destruct xs; [discriminate |]. intros _ [= <-]. discriminate.
  - destruct d; [discriminate |]. intros _ [= <-]. discriminate.
Qed.

Lemma joined_blocks_start_with_newline {A} (f : A -> result string) items blocks :
  (forall x b, f x = Ret b -> starts_with_newline b) ->
  items <> [] ->
  map_result f items = Ret blocks ->
  starts_with_newline (join separator blocks).
Proof.
  intros Hf Hne Hmap.
  destruct (map_result_Forall2 _ _ _ Hmap) as [| x b xs bs Hx _]; [contradiction |].
  apply join_starts_with_newline. exact (Hf _ _ Hx).
Qed.

Section Text.
Variable repr_float : float -> string.
Variable repr_str : string -> string.
Variable net : network.

Local Abbreviation get_alerts := (Weather.get_alerts repr_float repr_str net).
Local Abbreviation get_forecast := (Weather.get_forecast repr_float repr_str net).
Local Abbreviation format_alert := (Weather.format_alert repr_float repr_str).
Local Abbreviation format_period := (Weather.format_period repr_float repr_str).
Local Abbreviation points_url := (Weather.points_url repr_float).

(** X9. For a forecast of any number N of periods, [get_forecast]
    returns min(5, N) blocks: all of them when N <= 5, the first five
    otherwise, in the order received. *)
Theorem get_forecast_shows_at_most_five :
  forall (latitude longitude : float) (l l1 l2 : list request)
         (points_data forecast_url forecast_data : value) (periods : list value),
    make_nws_request net (PStr (points_url latitude longitude)) l = (Ret points_data, l1) ->
    nested points_data "properties" "forecast" = Some forecast_url ->
    make_nws_request net forecast_url l1 = (Ret forecast_data, l2) ->
    nested forecast_data "properties" "periods" = Some (PList periods) ->
    Forall (fun p => is_period p = true) (firstn 5 periods) ->
    get_forecast latitude longitude l =
      (Ret (join (nl ++ "---" ++ nl)
              (map (period_block repr_float repr_str) (firstn 5 periods))), l2) /\
    length (map (period_block repr_float repr_str) (firstn 5 periods)) =
      Nat.min 5 (length periods).
Proof.
  intros latitude longitude l l1 l2 pd u fd periods Hfetch Hurl Hdetail Hps Hall.
  split.
  - rewrite (get_forecast_periods_run _ _ _ _ _ _ _ _ _ _ _ _ Hfetch Hurl Hdetail Hps).
    rewrite (map_result_all _ (period_block repr_float repr_str) _
               (Forall_impl _ (format_period_block repr_float repr_str) Hall)).
    reflexivity.
  - now rewrite length_map, length_firstn.
Qed.

(** X10. A forecast whose period list is empty is answered with the
    empty string: there is no message for "no periods". *)
Theorem get_forecast_no_periods :
  forall (latitude longitude : float) (l l1 l2 : list request)
         (points_data forecast_url forecast_data : value),
    make_nws_request net (PStr (points_url latitude longitude)) l = (Ret points_data, l1) ->
    nested points_data "properties" "forecast" = Some forecast_url ->
    make_nws_request net forecast_url l1 = (Ret forecast_data, l2) ->
    nested forecast_data "properties" "periods" = Some (PList []) ->
    get_forecast latitude longitude l = (Ret "", l2).
Proof.
  intros latitude longitude l l1 l2 pd u fd Hfetch Hurl Hdetail Hps.
  now rewrite (get_forecast_periods_run _ _ _ _ _ _ _ _ _ _ _ _ Hfetch Hurl Hdetail Hps).
Qed.

(** X11. [get_forecast] gives no partial text: when one of the first
    five periods fails to render, the call raises the exception of the
    first such period, and the blocks already built are dropped. *)
Theorem get_forecast_first_failing_period :
  forall (latitude longitude : float) (l l1 l2 : list request)
         (points_data forecast_url forecast_data : value)
         (periods good rest : list value) (bad : value) (e : exn),
    make_nws_request net (PStr (points_url latitude longitude)) l = (Ret points_data, l1) ->
    nested points_data "properties" "forecast" = Some forecast_url ->
    make_nws_request net forecast_url l1 = (Ret forecast_data, l2) ->
    nested forecast_data "properties" "periods" = Some (PList periods) ->
    firstn 5 periods = (good ++ bad :: rest)%list ->
    Forall (fun p => is_period p = true) good ->
    format_period bad = Raise e ->
    get_forecast latitude longitude l = (Raise e, l2).
Proof.
  intros latitude longitude l l1 l2 pd u fd periods good rest bad e
         Hfetch Hurl Hdetail Hps Hsplit Hgood Hbad.
  rewrite (get_forecast_periods_run _ _ _ _ _ _ _ _ _ _ _ _ Hfetch Hurl Hdetail Hps).
  rewrite Hsplit, (map_result_first_failure format_period good rest bad e).
  - reflexivity.
  - eapply Forall_impl; [| exact Hgood]. intros p Hp.
    eexists. now apply format_period_block.
  - exact Hbad.
Qed.

(** X12. Periods after the fifth are never read: two forecasts that
    agree on their first five periods get the same answer, whatever
    follows (more periods, fewer, or values that are no periods at
    all), and whatever the network, coordinates and earlier requests
    of the two runs. *)
Theorem get_forecast_ignores_later_periods :
  forall (net' : network) (latitude longitude latitude' longitude' : float)
         (l l1 l2 l' l1' l2' : list request)
         (pd u fd pd' u' fd' : value) (periods periods' : list value),
    make_nws_request net (PStr (points_url latitude longitude)) l = (Ret pd, l1) ->
    nested pd "properties" "forecast" = Some u ->
    make_nws_request net u l1 = (Ret fd, l2) ->
    nested fd "properties" "periods" = Some (PList periods) ->
    make_nws_request net' (PStr (points_url latitude' longitude')) l' = (Ret pd', l1') ->
    nested pd' "properties" "forecast" = Some u' ->
    make_nws_request net' u' l1' = (Ret fd', l2') ->
    nested fd' "properties" "periods" = Some (PList periods') ->
    firstn 5 periods = firstn 5 periods' ->
    fst (get_forecast latitude longitude l) =
    fst (Weather.get_forecast repr_float repr_str net' latitude' longitude' l').
Proof.
  intros net' latitude longitude latitude' longitude' l l1 l2 l' l1' l2'
         pd u fd pd' u' fd' periods periods' H1 H2 H3 H4 H1' H2' H3' H4' Hsame.
  rewrite (get_forecast_periods_run _ _ _ _ _ _ _ _ _ _ _ _ H1 H2 H3 H4).
  rewrite (get_forecast_periods_run _ _ _ _ _ _ _ _ _ _ _ _ H1' H2' H3' H4').
  now rewrite Hsame.
Qed.

(** X13. [get_alerts] gives no partial text either: when a feature
    fails to format, the call raises the exception of the first such
    feature in the list. *)
Theorem get_alerts_first_failing_feature :
  forall (state : string) (l l1 : list request) (d : dict)
         (good rest : list value) (bad : value) (e : exn),
    make_nws_request net (PStr (alerts_url state)) l = (Ret (PDict d), l1) ->
    dict_lookup d "features" = Some (PList (good ++ bad :: rest)) ->
    Forall (fun f => is_feature f = true) good ->
    format_alert bad = Raise e ->
    get_alerts state l = (Raise e, l1).
Proof.
  intros state l l1 d good rest bad e Hfetch Hfs Hgood Hbad.
  destruct (good ++ bad :: rest)%list as [| f fs] eqn:Hsplit.
  { now destruct good. }
  rewrite (get_alerts_features_run _ _ _ _ _ _ _ _ _ Hfetch Hfs).
  rewrite <- Hsplit, (map_result_first_failure format_alert good rest bad e).
  - reflexivity.
  - eapply Forall_impl; [| exact Hgood]. intros a Ha.
    eexists. now apply format_alert_block.
  - exact Hbad.
Qed.

(** X14. Every text [get_alerts] returns is one of its two fixed
    messages or begins with a newline, as every alert block does; so a
    message is never mistaken for alert text. *)
Theorem get_alerts_output_shape :
  forall (state : string) (l l1 : list request) (text : string),
    get_alerts state l = (Ret text, l1) ->
    text = "Unable to fetch alerts or no alerts found." \/
    text = "No active alerts for this state." \/
    starts_with_newline text.
Proof.
  intros state l l1 text.
  unfold Weather.get_alerts.
  rewrite (bind_ret _ _ _ _ _ (make_nws_request_run net (PStr (alerts_url state)) l)).
  generalize (delivered (net l (nws_request (PStr (alerts_url state))))). intros data.
  unfold bind, lift, ret.
  destruct (truthy data); cbn [negb]; [| intros [= <- _]; now left].
  destruct (contains data "features") as [[|] |]; cbn [negb];
    [| intros [= <- _]; now left | discriminate].
  destruct (getitem data "features") as [fs |]; [| discriminate].
  destruct (truthy fs) eqn:Ht; cbn [negb]; [| intros [= <- _]; right; now left].
  destruct (iter fs) as [items |] eqn:Hi; [| discriminate].
  destruct (map_result format_alert items) as [alerts |] eqn:Hm; [| discriminate].
  intros [= <- _]. right; right.
  eapply joined_blocks_start_with_newline; [| | exact Hm].
  - apply format_alert_starts_with_newline.
  - exact (iter_truthy_nonempty _ _ Ht Hi).
Qed.

(** X15. Every text [get_forecast] returns is one of its two fixed
    messages, the empty string (no periods), or begins with a newline,
    as every period block does. *)
Theorem get_forecast_output_shape :
  forall (latitude longitude : float) (l l2 : list request) (text : string),
    get_forecast latitude longitude l = (Ret text, l2) ->
    text = "Unable to fetch forecast data for this location." \/
    text = "Unable to fetch detailed forecast." \/
    text = "" \/
    starts_with_newline text.
Proof.
  intros latitude longitude l l2 text.
  unfold Weather.get_forecast.
  rewrite (bind_ret _ _ _ _ _ (make_nws_request_run net _ l)).
  generalize (delivered (net l (nws_request (PStr (points_url latitude longitude))))).
  intros pd.
  destruct (truthy pd); cbn [negb]; [| intros [= <- _]; now left].
  destruct (getitem pd "properties") as [bag | e];
    [rewrite (bind_lift_ret _ _ _ _ eq_refl)
    | now rewrite (bind_lift_raise _ _ _ _ eq_refl)].
  destruct (getitem bag "forecast") as [u | e];
    [rewrite (bind_lift_ret _ _ _ _ eq_refl)
    | now rewrite (bind_lift_raise _ _ _ _ eq_refl)].
  rewrite (bind_ret _ _ _ _ _ (make_nws_request_run net u _)).
  generalize (delivered (net (l ++ [nws_request (PStr (points_url latitude longitude))])%list
                           (nws_request u))).
  intros fd.
  unfold bind, lift, ret.
  destruct (truthy fd); cbn [negb]; [| intros [= <- _]; right; now left].
  destruct (getitem fd "properties") as [props |]; [| discriminate].
  destruct (getitem props "periods") as [ps |]; [| discriminate].
  destruct (slice_to 5 ps) as [shown |]; [| discriminate].
  destruct (iter shown) as [items |]; [| discriminate].
  destruct (map_result format_period items) as [blocks |] eqn:Hm; [| discriminate].
  intros [= <- _]. right; right.
  destruct items as [| p items].
  - left. simpl in Hm. now injection Hm as <-.
  - right. eapply joined_blocks_start_with_newline; [| | exact Hm].
    + apply format_period_starts_with_newline.
    + discriminate.
Qed.

End Text.

(** X16. What [get_alerts] returns depends on the fetched data alone:
    two calls whose fetches deliver the same data give the same answer
    (text or exception), whatever the state codes, the networks and
    the requests sent before. *)
Lemma get_alerts_same_data_same_answer
    (repr_float : float -> string) (repr_str : string -> string)
    (net net' : network) state state' l l1 l' l1' data :
  make_nws_request net (PStr (alerts_url state)) l = (Ret data, l1) ->
  make_nws_request net' (PStr (alerts_url state')) l' = (Ret data, l1') ->
  fst (get_alerts repr_float repr_str net state l) =
  fst (get_alerts repr_float repr_str net' state' l').
Proof. apply get_alerts_depends_on_data_only. Qed.

(** ** The further properties at sample inputs *)

Lemma get_alerts_falsy_data_witness :
  get_alerts sample_repr_float sample_repr_str (net_const (PDict [])) "CA" [] =
    (Ret "Unable to fetch alerts or no alerts found.", [sample_alerts_request]).
Proof.
  apply (get_alerts_falsy_data sample_repr_float sample_repr_str (net_const (PDict []))
           "CA" [] [sample_alerts_request] (PDict [])); reflexivity.
Defined.

Lemma get_alerts_falsy_features_witness :
  get_alerts sample_repr_float sample_repr_str
      (net_const (PDict [("features", PNone)])) "CA" [] =
    (Ret "No active alerts for this state.", [sample_alerts_request]).
Proof.
  apply (get_alerts_falsy_features sample_repr_float sample_repr_str
           (net_const (PDict [("features", PNone)])) "CA" [] [sample_alerts_request]
           [("features", PNone)] PNone); reflexivity.
Defined.

Lemma get_forecast_falsy_points_witness :
  get_forecast sample_repr_float sample_repr_str (net_const (PList []))
      38.5%float (-77)%float [] =
    (Ret "Unable to fetch forecast data for this location.", [sample_points_request]).
Proof.
  apply (get_forecast_falsy_points sample_repr_float sample_repr_str (net_const (PList []))
           38.5%float (-77)%float [] [sample_points_request] (PList [])); reflexivity.
Defined.

Lemma get_forecast_falsy_detail_witness :
  get_forecast sample_repr_float sample_repr_str
      (net_two (ok sample_points) (ok (PDict []))) 38.5%float (-77)%float [] =
    (Ret "Unable to fetch detailed forecast.", forecast_requests).
Proof.
  apply (get_forecast_falsy_detail sample_repr_float sample_repr_str
           (net_two (ok sample_points) (ok (PDict []))) 38.5%float (-77)%float
           [] [sample_points_request] forecast_requests
           sample_points sample_forecast_url (PDict [])); reflexivity.
Defined.

Lemma get_forecast_shows_at_most_five_witness :
  get_forecast sample_repr_float sample_repr_str
      (net_two (ok sample_points) (ok (forecast_of two_periods)))
      38.5%float (-77)%float [] =
    (Ret (join (nl ++ "---" ++ nl)
            (map (period_block sample_repr_float sample_repr_str)
               (firstn 5 two_periods))), forecast_requests) /\
  length (map (period_block sample_repr_float sample_repr_str) (firstn 5 two_periods)) =
    Nat.min 5 (length two_periods).
Proof.
  apply (get_forecast_shows_at_most_five sample_repr_float sample_repr_str
           (net_two (ok sample_points) (ok (forecast_of two_periods)))
           38.5%float (-77)%float [] [sample_points_request] forecast_requests
           sample_points sample_forecast_url (forecast_of two_periods) two_periods).
  - reflexivity.
  - reflexivity.
  - reflexivity.
  - reflexivity.
  - repeat constructor.
Defined.

Lemma get_forecast_no_periods_witness :
  get_forecast sample_repr_float sample_repr_str
      (net_two (ok sample_points) (ok (forecast_of [])))
      38.5%float (-77)%float [] =
    (Ret "", forecast_requests).
Proof.
  apply (get_forecast_no_periods sample_repr_float sample_repr_str
           (net_two (ok sample_points) (ok (forecast_of [])))
           38.5%float (-77)%float [] [sample_points_request] forecast_requests
           sample_points sample_forecast_url (forecast_of [])); reflexivity.
Defined.

Lemma get_forecast_first_failing_period_witness :
  get_forecast sample_repr_float sample_repr_str
      (net_two (ok sample_points) (ok (forecast_of broken_periods)))
      38.5%float (-77)%float [] =
    (Raise (KeyError "temperature"), forecast_requests).
Proof.
  apply (get_forecast_first_failing_period sample_repr_float sample_repr_str
           (net_two (ok sample_points) (ok (forecast_of broken_periods)))
           38.5%float (-77)%float [] [sample_points_request] forecast_requests
           sample_points sample_forecast_url (forecast_of broken_periods)
           broken_periods [sample_period "Tonight" 41]
           [sample_period "Monday Night" 39] (PDict [("name", PStr "Monday")])
           (KeyError "temperature")).
  - reflexivity.
  - reflexivity.
  - reflexivity.
  - reflexivity.
  - reflexivity.
  - repeat constructor.
  - reflexivity.
Defined.

Lemma get_forecast_ignores_later_periods_witness :
  fst (get_forecast sample_repr_float sample_repr_str
         (net_two (ok sample_points) (ok sample_forecast)) 38.5%float (-77)%float []) =
  fst (get_forecast sample_repr_float sample_repr_str
         (net_after 1 (ok sample_points)
            (ok (forecast_of (five_periods ++ [PNone; PInt 3])%list)))
         0%float 0%float [sample_alerts_request]).
Proof.
  apply (get_forecast_ignores_later_periods sample_repr_float sample_repr_str
           (net_two (ok sample_points) (ok sample_forecast))
           (net_after 1 (ok sample_points)
              (ok (forecast_of (five_periods ++ [PNone; PInt 3])%list)))
           38.5%float (-77)%float 0%float 0%float
           [] [sample_points_request] forecast_requests
           [sample_alerts_request]
           [sample_alerts_request;
            nws_request (PStr (points_url sample_repr_float 0%float 0%float))]
           [sample_alerts_request;
            nws_request (PStr (points_url sample_repr_float 0%float 0%float));
            nws_request sample_forecast_url]
           sample_points sample_forecast_url sample_forecast
           sample_points sample_forecast_url
           (forecast_of (five_periods ++ [PNone; PInt 3])%list)
           (five_periods ++ [sample_period "Wednesday" 63])%list
           (five_periods ++ [PNone; PInt 3])%list);
    reflexivity.
Defined.

Lemma get_alerts_first_failing_feature_witness :
  get_alerts sample_repr_float sample_repr_str
      (net_const (alerts_of broken_features)) "CA" [] =
    (Raise (KeyError "properties"), [sample_alerts_request]).
Proof.
  apply (get_alerts_first_failing_feature sample_repr_float sample_repr_str
           (net_const (alerts_of broken_features)) "CA" [] [sample_alerts_request]
           [("features", PList broken_features)]
           [sample_feature] [PInt 7] (PDict [("id", PStr "urn:oid:1")])
           (KeyError "properties")).
  - reflexivity.
  - reflexivity.
  - repeat constructor.
  - reflexivity.
Defined.

Lemma get_alerts_output_shape_witness :
  alert_block sample_repr_float sample_repr_str sample_feature =
    "Unable to fetch alerts or no alerts found." \/
  alert_block sample_repr_float sample_repr_str sample_feature =
    "No active alerts for this state." \/
  starts_with_newline (alert_block sample_repr_float sample_repr_str sample_feature).
Proof.
  apply (get_alerts_output_shape sample_repr_float sample_repr_str
           (net_const (alerts_of [sample_feature])) "CA" [] [sample_alerts_request]
           (alert_block sample_repr_float sample_repr_str sample_feature)).
  reflexivity.
Defined.

Lemma get_forecast_output_shape_witness :
  join (nl ++ "---" ++ nl)
     (map (period_block sample_repr_float sample_repr_str) two_periods) =
    "Unable to fetch forecast data for this location." \/
  join (nl ++ "---" ++ nl)
     (map (period_block sample_repr_float sample_repr_str) two_periods) =
    "Unable to fetch detailed forecast." \/
  join (nl ++ "---" ++ nl)
     (map (period_block sample_repr_float sample_repr_str) two_periods) = "" \/
  starts_with_newline
    (join (nl ++ "---" ++ nl)
     (map (period_block sample_repr_float sample_repr_str) two_periods)).
Proof.
  apply (get_forecast_output_shape sample_repr_float sample_repr_str
           (net_two (ok sample_points) (ok (forecast_of two_periods)))
           38.5%float (-77)%float [] forecast_requests
           (join (nl ++ "---" ++ nl)
              (map (period_block sample_repr_float sample_repr_str) two_periods))).
  reflexivity.
Defined.

Lemma get_alerts_same_data_same_answer_witness :
  fst (get_alerts sample_repr_float sample_repr_str
         (net_const (alerts_of broken_features)) "CA" []) =
  fst (get_alerts sample_repr_float sample_repr_str
         (net_after 2 (ok (alerts_of broken_features)) (Failed TimeoutException))
         "NY" forecast_requests).
Proof.
  apply (get_alerts_same_data_same_answer sample_repr_float sample_repr_str
           (net_const (alerts_of broken_features))
           (net_after 2 (ok (alerts_of broken_features)) (Failed TimeoutException))
           "CA" "NY" [] [sample_alerts_request]
           forecast_requests
           (forecast_requests ++ [nws_request (PStr (alerts_url "NY"))])%list
           (alerts_of broken_features));
    reflexivity.
Defined.

(** ** Formatting across runs *)







